(** * Notebook glue of gsa-2020: the steady-state output writer of the
      terrainbento BasicVs notebook and the Ku driver cells of the pymt
      notebook.

    Python floats are modelled as exact rationals ([Q]): rounding, NaN and
    infinities are outside the model.  Calls into numpy, pandas, pymt, landlab
    and terrainbento are opaque functions (section variables); what the
    notebooks compute themselves is embedded function by function. *)

From Stdlib Require Import String QArith Qabs ZArith Bool List Lia.
Import ListNotations.

Local Open Scope Q_scope.

(** ** Python exceptions as an error monad *)

Inductive exn : Type :=
| IndexError
| ValueError
| ZeroDivisionError.

Inductive result (A : Type) : Type :=
| Ok (a : A)
| Raise (e : exn).

Arguments Ok {A} a.
Arguments Raise {A} e.

Definition bind {A B : Type} (r : result A) (k : A -> result B) : result B :=
  match r with
  | Ok a => k a
  | Raise e => Raise e
  end.

Definition rmap {A B : Type} (f : A -> B) (r : result A) : result B :=
  bind r (fun a => Ok (f a)).

Notation "x <- r ;; k" := (bind r (fun x => k))
  (at level 61, r at next level, right associativity).

(** Python's [a > b] and [a <= b] on numbers. *)
Definition Qgtb (a b : Q) : bool := negb (Qle_bool a b).
Definition Qleb (a b : Q) : bool := Qle_bool a b.

(** ** numpy and builtin helpers used by the notebooks *)

(** [a[idx]] with an integer index array: one element per index, IndexError
    when an index is past the end.  Grid node ids are never negative. *)
Fixpoint take (a : list Q) (idx : list nat) : result (list Q) :=
  match idx with
  | [] => Ok []
  | i :: rest =>
      match nth_error a i with
      | None => Raise IndexError
      | Some x => xs <- take a rest ;; Ok (x :: xs)
      end
  end.

(** [a - b] on arrays of the same shape. *)
Definition arr_sub (a b : list Q) : list Q :=
  map (fun p => fst p - snd p) (combine a b).

(** [abs(a)], element by element. *)
Definition arr_abs (a : list Q) : list Q := map Qabs a.

(** The builtin [max(iterable)]: the first item is the candidate, a later
    item replaces it when it compares greater; an empty iterable raises. *)
Definition py_max (l : list Q) : result Q :=
  match l with
  | [] => Raise ValueError
  | x :: rest => Ok (fold_left (fun m y => if Qgtb y m then y else m) rest x)
  end.

(** ** The run_to_steady output writer (BasicVs notebook) *)

Module Steady.

(** [tolerance = 20.0], the notebook's global. *)
Definition tolerance : Q := 20.

(** The part of the terrainbento model object the writer touches.  The
    notebook's global [model] and the writer's [self.model] are one object. *)
Record Model : Type := mkModel {
  z : list Q;                (* model.z, topographic__elevation at nodes *)
  core_nodes : list nat;     (* model.grid.core_nodes *)
  model_time : Q;            (* model.model_time / model._model_time *)
  clock_stop : Q;            (* model.clock.stop *)
  output_interval : Q        (* model.output_interval *)
}.

(** The writer's own attributes. *)
Record Writer : Type := mkWriter {
  last_z : list Q;
  self_tolerance : Q
}.

Record World : Type := mkWorld {
  model : Model;
  writer : Writer
}.

(** What a call prints. *)
Inductive message : Type :=
| ReachedSteady (t : Q).

Definition set_stop (m : Model) (s : Q) : Model :=
  mkModel (z m) (core_nodes m) (model_time m) s (output_interval m).

Definition set_last_z (wr : Writer) (a : list Q) : Writer :=
  mkWriter a (self_tolerance wr).

(** [run_to_steady.__init__]: [z.copy()] is a fresh array with the same
    contents. *)
Definition init (m : Model) : World :=
  mkWorld m (mkWriter (z m) tolerance).

(** [run_to_steady.run_one_step]. *)
Definition run_one_step (w : World) : result (World * list message) :=
  let m := model w in
  let wr := writer w in
  if Qgtb (model_time m) 0 then
    zc <- take (z m) (core_nodes m) ;;
    lc <- take (last_z wr) (core_nodes m) ;;
    let diff := arr_sub zc lc in
    mx <- py_max (arr_abs diff) ;;
    if Qleb mx (self_tolerance wr) then
      Ok (mkWorld (set_stop m (model_time m)) wr,
          [ReachedSteady (model_time m)])
    else
      let wr' := set_last_z wr (z m) in
      if Qleb (model_time m) (clock_stop m - output_interval m) then
        Ok (mkWorld (set_stop m (clock_stop m + output_interval m)) wr', [])
      else
        Ok (mkWorld m wr', [])
  else
    Ok (w, []).

(** *** Observations used in the statements *)

(** The call declared steady state: it printed the message and fixed the
    clock's stop time to the current model time. *)
Definition declared_steady (w : World) (r : World * list message) : Prop :=
  snd r = [ReachedSteady (model_time (model w))] /\
  clock_stop (model (fst r)) = model_time (model w).

(** Every core node has moved by at most the tolerance since the saved
    array. *)
Definition core_within_tolerance (w : World) : Prop :=
  forall i a b,
    In i (core_nodes (model w)) ->
    nth_error (z (model w)) i = Some a ->
    nth_error (last_z (writer w)) i = Some b ->
    Qabs (a - b) <= self_tolerance (writer w).

(** The same over all nodes of the two arrays. *)
Definition arrays_within_tolerance (w : World) : Prop :=
  forall i a b,
    nth_error (z (model w)) i = Some a ->
    nth_error (last_z (writer w)) i = Some b ->
    Qabs (a - b) <= self_tolerance (writer w).

(** The core nodes index both arrays in range and there is at least one. *)
Definition core_in_range (w : World) : Prop :=
  core_nodes (model w) <> [] /\
  forall i, In i (core_nodes (model w)) ->
    (i < length (z (model w)))%nat /\ (i < length (last_z (writer w)))%nat.

(** What the decision and the clock show of a call. *)
Definition observe (r : result (World * list message))
  : result (list message * Q) :=
  rmap (fun p => (snd p, clock_stop (model (fst p)))) r.

(** The reading of the check over whole arrays: at a positive model time a
    call declares steady state exactly when no node of the two arrays
    differs by more than the tolerance. *)
Definition steady_iff_arrays (w : World) : Prop :=
  0 < model_time (model w) ->
  forall r, run_one_step w = Ok r ->
    (declared_steady w r <-> arrays_within_tolerance w).

(** *** Small worlds for examples: node 0 on the boundary, node 1 core *)

Definition example_model (boundary core : Q) : Model :=
  mkModel [boundary; core] [1%nat] 10000 10000000 10000.

(** The boundary node dropped by 100 since the saved array, the core node
    did not move. *)
Definition boundary_moved : World :=
  mkWorld (example_model 0 5) (mkWriter [100; 5] tolerance).

(** The same with a boundary node that did not move. *)
Definition boundary_still : World :=
  mkWorld (example_model 100 5) (mkWriter [100; 5] tolerance).

(** The core node rose by 30 since the saved array. *)
Definition core_moved : World :=
  mkWorld (example_model 0 35) (mkWriter [0; 5] tolerance).

End Steady.

(** ** A state-and-exception monad for notebook cells

    A cell that raises keeps the effects it had before the exception. *)

Definition M (St A : Type) : Type := St -> St * result A.

Definition ret {St A : Type} (a : A) : M St A := fun s => (s, Ok a).

Definition throw {St A : Type} (e : exn) : M St A := fun s => (s, Raise e).

Definition lift {St A : Type} (r : result A) : M St A := fun s => (s, r).

Definition bindM {St A B : Type} (c : M St A) (k : A -> M St B) : M St B :=
  fun s =>
    match c s with
    | (s', Ok a) => k a s'
    | (s', Raise e) => (s', Raise e)
    end.

Notation "x <~ c ;; k" := (bindM c (fun x => k))
  (at level 61, c at next level, right associativity).
Notation "c ;;; k" := (bindM c (fun _ => k))
  (at level 61, right associativity).

(** [for i in range(n): body(i)], counting from [i]. *)
Fixpoint for_range {St : Type} (n i : nat) (body : nat -> M St unit)
  : M St unit :=
  match n with
  | O => ret tt
  | S n' => body i ;;; for_range n' (S i) body
  end.

(** [int(x)] on a float: truncation toward zero. *)
Definition py_int (x : Q) : Z := Z.quot (Qnum x) (Zpos (Qden x)).

(** [a / b] on floats: ZeroDivisionError for a zero divisor.  The quotient
    is the exact one, as for all float arithmetic here; the rounding of the
    float quotient is outside the model, and no statement below rests on
    the value of a quotient. *)
Definition py_div (a b : Q) : result Q :=
  if Qeq_bool b 0 then Raise ZeroDivisionError else Ok (a / b).

(** [a[i] = v] on an array. *)
Fixpoint array_set (a : list Q) (i : nat) (v : Q) : list Q :=
  match a, i with
  | [], _ => []
  | _ :: rest, O => v :: rest
  | x :: rest, S i' => x :: array_set rest i' v
  end.

(** ** Calls the notebooks make on their model objects *)

Inductive call : Type :=
| KuNew                       (* pymt.models.Ku() *)
| Setup
| Initialize
| Update
| GetValue (name : string)
| SetValue (name : string)
| GetAttr (name : string)     (* a property read: ku.time, model.grid, ... *)
| FromDict                    (* BasicVs.from_dict(params, output_writers=...) *)
| Run                         (* model.run() *)
| RemoveOutputNetcdfs.        (* model.remove_output_netcdfs() *)

(** The five functions of the uniform interface. *)
Definition is_interface_call (c : call) : bool :=
  match c with
  | Setup | Initialize | Update | GetValue _ | SetValue _ => true
  | _ => false
  end.

(** The properties of a Ku model the pymt notebook reads. *)
Definition is_ku_property (name : string) : bool :=
  existsb (String.eqb name)
    ["output_var_names"%string; "end_time"%string; "time"%string;
     "time_step"%string].

(** Constructing a Ku model and reading one of these properties. *)
Definition is_construct_or_read (c : call) : bool :=
  match c with
  | KuNew => true
  | GetAttr name => is_ku_property name
  | _ => false
  end.

Definition is_update (c : call) : bool :=
  match c with
  | Update => true
  | _ => false
  end.

(** The order the uniform interface asks for, as phases of a Ku model. *)
Inductive phase : Type :=
| NoModel        (* no model object yet *)
| Created        (* constructed, not set up *)
| SetUp          (* setup called, not initialized *)
| Initialized    (* initialized, not yet updated *)
| Updated.       (* updated at least once since initialize *)

Definition next_phase (p : phase) (c : call) : phase :=
  match c with
  | KuNew => Created
  | Setup => SetUp
  | Initialize => Initialized
  | Update => Updated
  | _ => p
  end.

(** The phase a model is in after the calls of [l], starting in [p]. *)
Definition phase_after (p : phase) (l : list call) : phase :=
  fold_left next_phase l p.

Definition is_initialized (p : phase) : bool :=
  match p with
  | Initialized | Updated => true
  | _ => false
  end.

(** May call [c] be made in phase [p]? *)
Definition allowed (p : phase) (c : call) : bool :=
  match c with
  | Setup => match p with NoModel => false | _ => true end
  | Initialize => match p with SetUp => true | _ => false end
  | Update | SetValue _ | GetAttr _ => is_initialized p
  | GetValue _ => match p with Updated => true | _ => false end
  | _ => true
  end.

(** Every call of [l] is allowed in the phase it is made in. *)
Fixpoint ordered (p : phase) (l : list call) : bool :=
  match l with
  | [] => true
  | c :: rest => allowed p c && ordered (next_phase p c) rest
  end.

(** ** The BasicVs notebook (terrainbento) *)

(** Python literals, for the parameter dictionary. *)
#[local] Unset Elimination Schemes.
Inductive pyval : Type :=
| PNum (q : Q)
| PStr (s : string)
| PBool (b : bool)
| PTuple (l : list pyval)
| PList (l : list pyval)
| PDict (l : list (string * pyval)).
#[local] Set Elimination Schemes.

Definition params : pyval :=
  PDict [
    ("clock"%string, PDict [
       ("start"%string, PNum 0);
       ("step"%string, PNum 10);
       ("stop"%string, PNum 10000000)]);
    ("grid"%string, PDict [
       ("RasterModelGrid"%string, PList [
          PTuple [PNum 25; PNum 40];
          PDict [("xy_spacing"%string, PNum 40)];
          PDict [("fields"%string, PDict [
            ("node"%string, PDict [
               ("topographic__elevation"%string, PDict [
                  ("random"%string,
                   PList [PDict [("where"%string, PStr "CORE_NODE")]])]);
               ("soil__depth"%string, PDict [
                  ("constant"%string,
                   PList [PDict [("value"%string, PNum 1)]])])])])]])]);
    ("boundary_handlers"%string, PDict [
       ("NotCoreNodeBaselevelHandler"%string, PDict [
          ("modify_core_nodes"%string, PBool true);
          ("lowering_rate"%string, PNum (- (1 # 1000)))])]);
    ("precipitator"%string, PDict [
       ("UniformPrecipitator"%string, PDict [
          ("rainfall_flux"%string, PNum (1 # 100))])]);
    ("output_interval"%string, PNum 10000);
    ("save_first_timestep"%string, PBool true);
    ("output_prefix"%string, PStr "basicVs.");
    ("fields"%string, PList [PStr "topographic__elevation"]);
    ("water_erodibility"%string, PNum (1 # 1000));
    ("m_sp"%string, PNum (1 # 2));
    ("n_sp"%string, PNum 1);
    ("regolith_transport_parameter"%string, PNum (1 # 10));
    ("hydraulic_conductivity"%string, PNum 10)
  ].

Section BasicVsNotebook.

(** numpy's global generator: [np.random.seed(s)] puts it in the state that
    [s] fixes, whatever it was before. *)
Variable RNG : Type.
Variable np_random_seed : Z -> RNG.

(** [BasicVs.from_dict]: builds the model from the dictionary, drawing the
    random initial topography from the global generator. *)
Variable from_dict : pyval -> RNG -> Steady.Model * RNG.

(** [model.run()]: terrainbento's run loop, which calls the output writer it
    is given; it may raise after some of its effects. *)
Variable lib_run :
  (Steady.World -> result (Steady.World * list Steady.message)) ->
  Steady.World * RNG ->
  (Steady.World * RNG * list Steady.message) * result unit.

Record BKernel : Type := mkBKernel {
  rng : RNG;
  world : option Steady.World;        (* model and its writer, once built *)
  printed : list Steady.message;
  blog : list call
}.

(** A kernel that has run no cell; [g] is the generator's state at start. *)
Definition fresh (g : RNG) : BKernel := mkBKernel g None [] [].

(** Cell 1: imports and [np.random.seed(4897)]. *)
Definition cell_seed : M BKernel unit :=
  fun k =>
    (mkBKernel (np_random_seed 4897) (world k) (printed k) (blog k), Ok tt).

(** Cell 5: [model = BasicVs.from_dict(p, output_writers=...)] and
    [model.run()].  from_dict instantiates the writer class on the model. *)
Definition cell_run (p : pyval) : M BKernel unit :=
  fun k =>
    let mg := from_dict p (rng k) in
    let w := Steady.init (fst mg) in
    let r := lib_run Steady.run_one_step (w, snd mg) in
    let w' := fst (fst (fst r)) in
    let g' := snd (fst (fst r)) in
    let out := snd (fst r) in
    (mkBKernel g' (Some w') (printed k ++ out) (blog k ++ [FromDict; Run]),
     snd r).

Definition read_grid : M BKernel unit :=
  fun k =>
    (mkBKernel (rng k) (world k) (printed k) (blog k ++ [GetAttr "grid"]),
     Ok tt).

(** Cell 6: the slope-area plot reads [model.grid] five times: for
    node_has_boundary_neighbor and its core_nodes argument, for core_nodes
    again, and for at_node twice. *)
Definition cell_slope_area : M BKernel unit :=
  read_grid ;;; read_grid ;;; read_grid ;;; read_grid ;;; read_grid.

(** Cell 7: [model.remove_output_netcdfs()]. *)
Definition cell_remove : M BKernel unit :=
  fun k =>
    (mkBKernel (rng k) (world k) (printed k) (blog k ++ [RemoveOutputNetcdfs]),
     Ok tt).

(** Cell 8: [imshow_grid(model.grid, ...)]. *)
Definition cell_imshow : M BKernel unit := read_grid.

(** The code cells of the notebook, top to bottom, for a dictionary [p]. *)
Definition basicvs_notebook_with (p : pyval) : M BKernel unit :=
  cell_seed ;;; cell_run p ;;; cell_slope_area ;;; cell_remove ;;; cell_imshow.

Definition basicvs_notebook : M BKernel unit := basicvs_notebook_with params.

End BasicVsNotebook.

(** The calls of the BasicVs notebook up to and including [model.run()],
    and those of the cells after it. *)
Definition basicvs_run_calls : list call := [FromDict; Run].

Definition basicvs_later_calls : list call :=
  [GetAttr "grid"; GetAttr "grid"; GetAttr "grid"; GetAttr "grid";
   GetAttr "grid"; RemoveOutputNetcdfs; GetAttr "grid"].

(** *** The arrays of the slope-area plot (cell 6) *)

(** [a[mask]] with a boolean mask: the elements where the mask is True, in
    order; IndexError when the mask has another length than the array. *)
Definition mask_select (a : list nat) (mask : list bool)
  : result (list nat) :=
  if (List.length a =? List.length mask)%nat
  then Ok (map fst (filter snd (combine a mask)))
  else Raise IndexError.

(** [np.array(flags) == False], element by element. *)
Definition is_false (flags : list bool) : list bool := map negb flags.

(** The plotted nodes and their two arrays.  [has_boundary_neighbor] is
    landlab's [grid.node_has_boundary_neighbor], [area] and [slope] are the
    node fields drainage_area and topographic__steepest_slope. *)
Definition slope_area_arrays
    (has_boundary_neighbor : list nat -> list bool)
    (core : list nat) (area slope : list Q)
  : result (list nat * list Q * list Q) :=
  let core_not_boundary := is_false (has_boundary_neighbor core) in
  plotting_nodes <- mask_select core core_not_boundary ;;
  area_array <- take area plotting_nodes ;;
  slope_array <- take slope plotting_nodes ;;
  Ok (plotting_nodes, area_array, slope_array).

(** ** The Ku notebook (pymt) *)

(** A row of the forcing table read by [pandas.read_csv]. *)
Record Row : Type := mkRow {
  atmosphere_bottom_air__temperature : Q;
  atmosphere_bottom_air__temperature_amplitude : Q;
  snowpack__depth : Q
}.

(** *** A small library instance for examples

    A Ku model whose state is the number of updates since initialize, a
    two-year table, and a run loop that calls the output writer once. *)

Module Sample.

Definition ku_new : Q := 0.
Definition ku_setup (s : Q) (kwds : list (string * Q)) : unit * Q := (tt, s).
Definition ku_initialize (s : Q) (a : unit) : Q := 0.
Definition ku_update (s : Q) : Q := s + 1.
Definition ku_get_value (s : Q) (name : string) : Q := s.
Definition ku_set_value (s : Q) (name : string) (v : Q) : Q := s.
Definition ku_end_time (s : Q) : Q := 2.
Definition ku_time (s : Q) : Q := 0.
Definition ku_time_step (s : Q) : Q := 1.

Definition data : list Row :=
  [mkRow (- (12)) 18 (2 # 10); mkRow (- (11)) 17 (3 # 10)].

Definition junk (i : nat) : Q := 0.

Definition np_random_seed (s : Z) : nat := Z.to_nat s.

Definition from_dict (p : pyval) (g : nat) : Steady.Model * nat :=
  (Steady.example_model 0 5, S g).

Definition lib_run
    (writer : Steady.World -> result (Steady.World * list Steady.message))
    (wg : Steady.World * nat)
  : (Steady.World * nat * list Steady.message) * result unit :=
  match writer (fst wg) with
  | Ok r => ((fst r, snd wg, snd r), Ok tt)
  | Raise e => ((fst wg, snd wg, []), Raise e)
  end.

End Sample.

Section KuNotebook.

(** The pymt Ku model object, opaque. *)
Variable KuState : Type.
Variable Args : Type.       (* what setup returns: config file and run folder *)
Variable ku_new : KuState.
Variable ku_setup : KuState -> list (string * Q) -> Args * KuState.
Variable ku_initialize : KuState -> Args -> KuState.
Variable ku_update : KuState -> KuState.
Variable ku_get_value : KuState -> string -> Q.
Variable ku_set_value : KuState -> string -> Q -> KuState.
Variable ku_end_time ku_time ku_time_step : KuState -> Q.

(** The table behind the URL of the read_csv cell, and what [np.empty]
    leaves in a fresh array. *)
Variable data : list Row.
Variable junk : nat -> Q.

(** The kernel's variables the Ku cells use, and the calls made so far. *)
Record Kernel : Type := mkKernel {
  ku : KuState;
  thickness : list Q;
  log : list call
}.

Definition emit (c : call) (f : KuState -> KuState) : M Kernel unit :=
  fun k => (mkKernel (f (ku k)) (thickness k) (log k ++ [c]), Ok tt).

Definition new_ku : M Kernel unit := emit KuNew (fun _ => ku_new).

Definition setup (kwds : list (string * Q)) : M Kernel Args :=
  fun k =>
    let r := ku_setup (ku k) kwds in
    (mkKernel (snd r) (thickness k) (log k ++ [Setup]), Ok (fst r)).

Definition initialize (a : Args) : M Kernel unit :=
  emit Initialize (fun s => ku_initialize s a).

Definition update : M Kernel unit := emit Update ku_update.

Definition get_value (name : string) : M Kernel Q :=
  fun k =>
    (mkKernel (ku k) (thickness k) (log k ++ [GetValue name]),
     Ok (ku_get_value (ku k) name)).

Definition set_value (name : string) (v : Q) : M Kernel unit :=
  emit (SetValue name) (fun s => ku_set_value s name v).

Definition get_attr (name : string) (f : KuState -> Q) : M Kernel Q :=
  fun k =>
    (mkKernel (ku k) (thickness k) (log k ++ [GetAttr name]), Ok (f (ku k))).

(** [a.values[i]] for a loop index [i]. *)
Definition index (a : list Q) (i : nat) : M Kernel Q :=
  fun k =>
    match nth_error a i with
    | Some x => (k, Ok x)
    | None => (k, Raise IndexError)
    end.

(** [thickness = np.empty(n)]. *)
Definition np_empty (n : Z) : M Kernel unit :=
  fun k =>
    if (n <? 0)%Z then (k, Raise ValueError)
    else (mkKernel (ku k) (map junk (seq 0 (Z.to_nat n))) (log k), Ok tt).

(** [thickness[i] = v]. *)
Definition store_thickness (i : nat) (v : Q) : M Kernel unit :=
  fun k =>
    if (i <? List.length (thickness k))%nat
    then (mkKernel (ku k) (array_set (thickness k) i v) (log k), Ok tt)
    else (k, Raise IndexError).

(** The three columns picked out of [data]. *)
Definition maat : list Q := map atmosphere_bottom_air__temperature data.
Definition tamp : list Q :=
  map atmosphere_bottom_air__temperature_amplitude data.
Definition snow_depth : list Q := map snowpack__depth data.

Definition ALT : string := "soil__active_layer_thickness".
Definition MAAT : string := "atmosphere_bottom_air__temperature".
Definition TAMP : string := "atmosphere_bottom_air__temperature_amplitude".
Definition SNOW : string := "snowpack__depth".

(** Part 1. *)
Definition part1 : M Kernel unit :=
  args <~ setup [("T_air"%string, - (1521 # 100)); ("A_air"%string, 1851 # 100)] ;;
  initialize args ;;;
  update ;;;
  _ <~ get_attr "output_var_names" (fun _ => 0) ;;
  _ <~ get_value ALT ;;
  ret tt.

(** One run of Parts 2 and 3: setup with one keyword, initialize, update,
    read the thickness. *)
Definition one_run (kw : string) (v : Q) : M Kernel unit :=
  args <~ setup [(kw, v)] ;;
  initialize args ;;;
  update ;;;
  _ <~ get_value ALT ;;
  ret tt.

Definition part2 : M Kernel unit :=
  one_run "h_snow" 0 ;;; one_run "h_snow" (4 # 10).

Definition part3 : M Kernel unit :=
  one_run "vwc_H2O" (2 # 10) ;;; one_run "vwc_H2O" (6 # 10).

(** Part 4, the cell that makes and initializes a fresh model. *)
Definition part4_init : M Kernel unit :=
  new_ku ;;;
  args <~ setup [("end_year"%string, 2050)] ;;
  initialize args.

(** [n_steps = int((ku.end_time - ku.time) / ku.time_step)]. *)
Definition n_steps : M Kernel Z :=
  e <~ get_attr "end_time" ku_end_time ;;
  t <~ get_attr "time" ku_time ;;
  dt <~ get_attr "time_step" ku_time_step ;;
  q <~ lift (py_div (e - t) dt) ;;
  ret (py_int q).

(** The body of the driver loop. *)
Definition driver_body (i : nat) : M Kernel unit :=
  a <~ index maat i ;;
  set_value MAAT a ;;;
  b <~ index tamp i ;;
  set_value TAMP b ;;;
  c <~ index snow_depth i ;;
  set_value SNOW c ;;;
  update ;;;
  v <~ get_value ALT ;;
  store_thickness i v.

(** The driver cell of Part 4. *)
Definition part4_driver : M Kernel unit :=
  n <~ n_steps ;;
  np_empty n ;;;
  for_range (Z.to_nat n) 0 driver_body.

(** The code cells of the notebook, top to bottom. *)
Definition ku_notebook : M Kernel unit :=
  new_ku ;;; part1 ;;; part2 ;;; part3 ;;; part4_init ;;; part4_driver.

(** A kernel that has run no cell.  No name is bound yet; the [ku] field
    is overwritten by [ku = pymt.models.Ku()] before any use. *)
Definition fresh_kernel : Kernel := mkKernel ku_new [] [].

(** *** What the statements compare the driver with *)

(** The value [n_steps] gets, from the model's three properties. *)
Definition n_steps_of (s : KuState) : result Z :=
  rmap py_int (py_div (ku_end_time s - ku_time s) (ku_time_step s)).

(** One year of forcing: the three values of a row are set, then the model
    is updated. *)
Definition forced (s : KuState) (r : Row) : KuState :=
  ku_update
    (ku_set_value
       (ku_set_value
          (ku_set_value s MAAT (atmosphere_bottom_air__temperature r))
          TAMP (atmosphere_bottom_air__temperature_amplitude r))
       SNOW (snowpack__depth r)).

(** The model after the years of [rows], in order. *)
Definition ku_after (s : KuState) (rows : list Row) : KuState :=
  fold_left forced rows s.

(** The thickness read after each year of [rows], in order. *)
Fixpoint thickness_of (s : KuState) (rows : list Row) : list Q :=
  match rows with
  | [] => []
  | r :: rest => ku_get_value (forced s r) ALT :: thickness_of (forced s r) rest
  end.

(** The calls of one iteration. *)
Definition body_calls : list call :=
  [SetValue MAAT; SetValue TAMP; SetValue SNOW; Update; GetValue ALT].

(** The property reads of the [n_steps] line. *)
Definition n_steps_calls : list call :=
  [GetAttr "end_time"; GetAttr "time"; GetAttr "time_step"].

(** The calls a kernel has made since an earlier kernel. *)
Definition calls_since (k k' : Kernel) : list call :=
  skipn (List.length (log k)) (log k').

(** Iteration [i] finds its three forcing values in the table. *)
Definition in_bounds (i : nat) : Prop :=
  exists a b c,
    nth_error maat i = Some a /\
    nth_error tamp i = Some b /\
    nth_error snow_depth i = Some c.

(** The kernel when the driver cell starts: all cells before it have run. *)
Definition before_driver : Kernel :=
  fst ((new_ku ;;; part1 ;;; part2 ;;; part3 ;;; part4_init) fresh_kernel).

(** The calls of the cells before the driver cell. *)
Definition header_calls : list call :=
  [KuNew;
   Setup; Initialize; Update; GetAttr "output_var_names"; GetValue ALT;
   Setup; Initialize; Update; GetValue ALT;
   Setup; Initialize; Update; GetValue ALT;
   Setup; Initialize; Update; GetValue ALT;
   Setup; Initialize; Update; GetValue ALT;
   KuNew; Setup; Initialize].

(** A call the pymt notebook may make on a Ku model: one of the five
    interface functions, the constructor, or a property read. *)
Definition ku_call (c : call) : bool :=
  is_interface_call c || is_construct_or_read c.

(** ** Facts about the Ku driver loop *)

Lemma array_set_length (a : list Q) (i : nat) (v : Q) :
  List.length (array_set a i v) = List.length a.
Proof.
  revert i; induction a as [|x a IH]; intros [|i]; simpl; auto.
Qed.

Lemma array_set_app (pre post : list Q) (x v : Q) :
  array_set (pre ++ x :: post) (List.length pre) v = pre ++ v :: post.
Proof.
  induction pre as [|y pre IH]; simpl; [reflexivity | now rewrite IH].
Qed.

Lemma driver_body_ok (i : nat) (k : Kernel) (r : Row) :
  nth_error data i = Some r ->
  (i < List.length (thickness k))%nat ->
  driver_body i k =
    (mkKernel (forced (ku k) r)
              (array_set (thickness k) i (ku_get_value (forced (ku k) r) ALT))
              (log k ++ body_calls),
     Ok tt).
Proof.
  intros Hr Hi.
  unfold driver_body, bindM, index, maat, tamp, snow_depth.
  rewrite !nth_error_map, Hr; simpl.
  apply Nat.ltb_lt in Hi.
  unfold store_thickness; simpl; rewrite Hi.
  unfold forced, body_calls.
  repeat rewrite <- app_assoc; reflexivity.
Qed.

Lemma driver_body_fail (i : nat) (k : Kernel) :
  nth_error data i = None ->
  driver_body i k = (k, Raise IndexError).
Proof.
  intros Hr.
  unfold driver_body, bindM, index, maat.
  now rewrite nth_error_map, Hr.
Qed.

Lemma for_range_add {St : Type} (a b i : nat) (body : nat -> M St unit)
      (s : St) :
  for_range (a + b) i body s =
    (for_range a i body ;;; for_range b (i + a) body) s.
Proof.
  unfold bindM.
  revert i s; induction a as [|a IH]; intros i s; simpl.
  - now rewrite Nat.add_0_r.
  - unfold bindM. destruct (body i s) as [s1 [[]|e]]; [|reflexivity].
    now rewrite IH, Nat.add_succ_r.
Qed.

(** The loop over rows that are all there runs to its end. *)
Lemma loop_complete (rows : list Row) :
  forall (dpre dpost : list Row) (k : Kernel) (pre mid post : list Q),
    data = dpre ++ rows ++ dpost ->
    thickness k = pre ++ mid ++ post ->
    List.length pre = List.length dpre ->
    List.length mid = List.length rows ->
    for_range (List.length rows) (List.length dpre) driver_body k =
      (mkKernel (ku_after (ku k) rows)
                (pre ++ thickness_of (ku k) rows ++ post)
                (log k ++ concat (repeat body_calls (List.length rows))),
       Ok tt).
Proof.
  induction rows as [|r rows IH]; intros dpre dpost k pre mid post Hd Ht Hp Hm.
  - destruct mid; [|discriminate]. destruct k as [s t l]; simpl in *.
    subst t. unfold ret. now rewrite app_nil_r.
  - destruct mid as [|m mid]; [discriminate|].
    simpl for_range. unfold bindM.
    assert (Hr : nth_error data (List.length dpre) = Some r).
    { rewrite Hd, nth_error_app2, Nat.sub_diag by lia. reflexivity. }
    rewrite (driver_body_ok _ _ r Hr).
    2:{ rewrite Ht, !length_app, Hp; simpl; lia. }
    rewrite Ht, <- Hp.
    change ((m :: mid) ++ post) with (m :: mid ++ post).
    rewrite array_set_app.
    replace (S (List.length pre)) with (List.length (dpre ++ [r]))
      by (rewrite length_app, Hp; simpl; lia).
    erewrite (IH (dpre ++ [r]) dpost _ (pre ++ [_]) mid post).
    + simpl. rewrite <- !app_assoc. reflexivity.
    + rewrite Hd, <- app_assoc. reflexivity.
    + simpl. rewrite <- app_assoc. reflexivity.
    + rewrite !length_app, Hp. reflexivity.
    + simpl in Hm. lia.
Qed.

(** The loop asked for more rows than there are stops with IndexError at the
    first missing row, after one update per row that was there. *)
Lemma loop_short (rows : list Row) (extra : nat) :
  forall (k : Kernel) (mid rest : list Q),
    data = rows ->
    thickness k = mid ++ rest ->
    List.length mid = List.length rows ->
    for_range (List.length rows + S extra) 0 driver_body k =
      (mkKernel (ku_after (ku k) rows)
                (thickness_of (ku k) rows ++ rest)
                (log k ++ concat (repeat body_calls (List.length rows))),
       Raise IndexError).
Proof.
  intros k mid rest Hd Ht Hm.
  assert (H := loop_complete rows [] [] k [] mid rest).
  simpl in H. rewrite app_nil_r in H. specialize (H Hd Ht eq_refl Hm).
  rewrite for_range_add. unfold bindM at 1. rewrite H.
  simpl. unfold bindM. rewrite driver_body_fail; [reflexivity|].
  apply nth_error_None. rewrite Hd. lia.
Qed.

(** The [n_steps] line reads three properties and changes nothing else. *)
Lemma n_steps_run (k : Kernel) :
  n_steps k =
    (mkKernel (ku k) (thickness k) (log k ++ n_steps_calls),
     n_steps_of (ku k)).
Proof.
  unfold n_steps, n_steps_of, rmap, bind, bindM, get_attr, lift, ret; simpl.
  rewrite <- !app_assoc; simpl.
  destruct (py_div _ _); reflexivity.
Qed.

Lemma thickness_of_length (s : KuState) (rows : list Row) :
  List.length (thickness_of s rows) = List.length rows.
Proof.
  revert s; induction rows as [|r rows IH]; intros s; simpl; auto.
Qed.

(** The driver cell when the table has a row for every step. *)
Lemma part4_driver_complete (k : Kernel) (n : Z) :
  n_steps_of (ku k) = Ok n ->
  (0 <= n <= Z.of_nat (List.length data))%Z ->
  part4_driver k =
    (mkKernel (ku_after (ku k) (firstn (Z.to_nat n) data))
              (thickness_of (ku k) (firstn (Z.to_nat n) data))
              (log k ++ n_steps_calls
                     ++ concat (repeat body_calls (Z.to_nat n))),
     Ok tt).
Proof.
  intros Hn Hr.
  unfold part4_driver, bindM. rewrite n_steps_run, Hn.
  unfold np_empty; simpl.
  destruct (Z.ltb_spec n 0) as [Hneg|_]; [lia|].
  set (N := Z.to_nat n).
  assert (HN : (N <= List.length data)%nat) by (unfold N; lia).
  set (k1 := mkKernel _ _ _).
  assert (H := loop_complete (firstn N data) [] (skipn N data) k1 []
                             (map junk (seq 0 N)) []).
  rewrite length_firstn, Nat.min_l in H by exact HN.
  simpl in H. rewrite !app_nil_r in H.
  rewrite H; unfold k1; simpl.
  - now rewrite <- app_assoc.
  - symmetry. apply firstn_skipn.
  - reflexivity.
  - reflexivity.
  - now rewrite length_map, length_seq.
Qed.

(** The driver cell when [n_steps] exceeds the number of rows. *)
Lemma part4_driver_short (k : Kernel) (n : Z) :
  n_steps_of (ku k) = Ok n ->
  (Z.of_nat (List.length data) < n)%Z ->
  part4_driver k =
    (mkKernel (ku_after (ku k) data)
              (thickness_of (ku k) data
                 ++ skipn (List.length data) (map junk (seq 0 (Z.to_nat n))))
              (log k ++ n_steps_calls
                     ++ concat (repeat body_calls (List.length data))),
     Raise IndexError).
Proof.
  intros Hn Hr.
  unfold part4_driver, bindM. rewrite n_steps_run, Hn.
  unfold np_empty; simpl.
  destruct (Z.ltb_spec n 0) as [Hneg|_]; [lia|].
  set (N := Z.to_nat n).
  assert (HN : (N = List.length data + S (N - List.length data - 1))%nat)
    by (unfold N; lia).
  set (k1 := mkKernel _ _ _).
  assert (H := loop_short data (N - List.length data - 1) k1
                 (firstn (List.length data) (map junk (seq 0 N)))
                 (skipn (List.length data) (map junk (seq 0 N)))).
  rewrite <- HN in H. rewrite H; unfold k1; simpl.
  - now rewrite <- app_assoc.
  - reflexivity.
  - symmetry. apply firstn_skipn.
  - rewrite length_firstn, length_map, length_seq. lia.
Qed.

(** The driver cell when [n_steps] is negative: [np.empty] refuses. *)
Lemma part4_driver_negative (k : Kernel) (n : Z) :
  n_steps_of (ku k) = Ok n ->
  (n < 0)%Z ->
  part4_driver k =
    (mkKernel (ku k) (thickness k) (log k ++ n_steps_calls), Raise ValueError).
Proof.
  intros Hn Hr.
  unfold part4_driver, bindM. rewrite n_steps_run, Hn.
  unfold np_empty; simpl.
  destruct (Z.ltb_spec n 0) as [_|Hpos]; [reflexivity|lia].
Qed.

(** The driver cell when the step count itself cannot be computed. *)
Lemma part4_driver_no_steps (k : Kernel) (e : exn) :
  n_steps_of (ku k) = Raise e ->
  part4_driver k =
    (mkKernel (ku k) (thickness k) (log k ++ n_steps_calls), Raise e).
Proof.
  intros Hn. unfold part4_driver, bindM. now rewrite n_steps_run, Hn.
Qed.

Lemma skipn_app_length {A : Type} (l x : list A) :
  skipn (List.length l) (l ++ x) = x.
Proof.
  induction l as [|a l IH]; simpl; auto.
Qed.

Lemma updates_in_loop (N : nat) :
  List.length (filter is_update (concat (repeat body_calls N))) = N.
Proof.
  induction N as [|N IH]; simpl; [reflexivity | now rewrite IH].
Qed.

Lemma in_bounds_iff (i : nat) :
  in_bounds i <-> (i < List.length data)%nat.
Proof.
  unfold in_bounds, maat, tamp, snow_depth. split.
  - intros (a & _ & _ & Ha & _).
    rewrite nth_error_map in Ha.
    destruct (nth_error data i) eqn:E; [|discriminate].
    apply nth_error_Some. congruence.
  - intros Hi. apply nth_error_Some in Hi.
    destruct (nth_error data i) as [r|] eqn:E; [|congruence].
    exists (atmosphere_bottom_air__temperature r),
           (atmosphere_bottom_air__temperature_amplitude r),
           (snowpack__depth r).
    rewrite !nth_error_map, E. auto.
Qed.

(** C6: in the Part 4 driver loop iteration i reads maat.values[i],
    tamp.values[i] and snow_depth.values[i]; all these reads are in bounds
    exactly when n_steps does not exceed the number of rows of the forcing
    table, and the cell stops with IndexError exactly when it does exceed
    it. *)
Theorem driver_reads_in_bounds (k : Kernel) (n : Z) :
  n_steps_of (ku k) = Ok n ->
  ((forall i, (i < Z.to_nat n)%nat -> in_bounds i) <->
   (n <= Z.of_nat (List.length data))%Z) /\
  (snd (part4_driver k) = Raise IndexError <->
   (Z.of_nat (List.length data) < n)%Z).
Proof.
  intros Hn. split.
  - split.
    + intros H.
      destruct (Z_le_gt_dec n (Z.of_nat (List.length data))) as [|Hgt]; auto.
      assert (Hb : in_bounds (List.length data)) by (apply H; lia).
      apply in_bounds_iff in Hb. lia.
    + intros H i Hi. apply in_bounds_iff. lia.
  - destruct (Z_lt_ge_dec n 0) as [Hneg|Hpos].
    + rewrite (part4_driver_negative k n Hn Hneg); simpl.
      split; [discriminate | lia].
    + destruct (Z_le_gt_dec n (Z.of_nat (List.length data))) as [Hle|Hgt].
      * rewrite (part4_driver_complete k n Hn); [simpl | lia].
        split; [discriminate | lia].
      * rewrite (part4_driver_short k n Hn); [simpl | lia].
        split; [lia | reflexivity].
Qed.

(** C10: the Part 4 driver cell evaluates n_steps once, from the three
    properties of the initialized model; when the table has a row for each
    of the n_steps steps the cell runs to completion, and on completion it
    has called update exactly n_steps times, each time after setting the
    three forcing values of that step, and the thickness array holds the
    n_steps values read after the successive updates, in order. *)
Theorem driver_loop_counts (k : Kernel) :
  (forall n, n_steps_of (ku k) = Ok n ->
             (0 <= n <= Z.of_nat (List.length data))%Z ->
             snd (part4_driver k) = Ok tt) /\
  (forall k', part4_driver k = (k', Ok tt) ->
     exists n,
       n_steps_of (ku k) = Ok n /\
       (0 <= n <= Z.of_nat (List.length data))%Z /\
       calls_since k k' =
         n_steps_calls ++ concat (repeat body_calls (Z.to_nat n)) /\
       List.length (filter is_update (calls_since k k')) = Z.to_nat n /\
       ku k' = ku_after (ku k) (firstn (Z.to_nat n) data) /\
       thickness k' = thickness_of (ku k) (firstn (Z.to_nat n) data) /\
       List.length (thickness k') = Z.to_nat n).
Proof.
  split.
  - intros n Hn Hr. now rewrite (part4_driver_complete k n Hn Hr).
  - intros k' Hrun.
    destruct (n_steps_of (ku k)) as [n|e] eqn:Hn.
    2:{ rewrite (part4_driver_no_steps k e Hn) in Hrun. discriminate. }
    destruct (Z_lt_ge_dec n 0) as [Hneg|Hpos].
    { rewrite (part4_driver_negative k n Hn Hneg) in Hrun. discriminate. }
    destruct (Z_le_gt_dec n (Z.of_nat (List.length data))) as [Hle|Hgt].
    2:{ rewrite (part4_driver_short k n Hn) in Hrun by lia. discriminate. }
    rewrite (part4_driver_complete k n Hn) in Hrun by lia.
    injection Hrun as <-. exists n. unfold calls_since; simpl.
    rewrite skipn_app_length.
    repeat split; try lia.
    + simpl. apply updates_in_loop.
    + rewrite thickness_of_length, length_firstn. lia.
Qed.

(** ** The calls of the whole Ku notebook *)

Lemma ku_notebook_driver :
  ku_notebook fresh_kernel = part4_driver before_driver.
Proof. vm_compute. reflexivity. Qed.

Lemma before_driver_log : log before_driver = header_calls.
Proof. vm_compute. reflexivity. Qed.

(** Whatever the library and the table do, the notebook's calls are those of
    the cells before the driver, the three property reads, and some number
    of whole loop iterations. *)
Lemma ku_notebook_log :
  exists m,
    log (fst (ku_notebook fresh_kernel)) =
      header_calls ++ n_steps_calls ++ concat (repeat body_calls m).
Proof.
  rewrite ku_notebook_driver.
  destruct (n_steps_of (ku before_driver)) as [n|e] eqn:Hn.
  - destruct (Z_lt_ge_dec n 0) as [Hneg|Hpos].
    + exists 0%nat. rewrite (part4_driver_negative _ n Hn Hneg).
      cbn [fst log concat repeat]. now rewrite before_driver_log.
    + destruct (Z_le_gt_dec n (Z.of_nat (List.length data))) as [Hle|Hgt].
      * exists (Z.to_nat n).
        rewrite (part4_driver_complete _ n Hn) by lia.
        cbn [fst log]. now rewrite before_driver_log.
      * exists (List.length data).
        rewrite (part4_driver_short _ n Hn) by lia.
        cbn [fst log]. now rewrite before_driver_log.
  - exists 0%nat. rewrite (part4_driver_no_steps _ e Hn).
    cbn [fst log concat repeat]. now rewrite before_driver_log.
Qed.

Lemma ordered_app (p : phase) (l1 l2 : list call) :
  ordered p (l1 ++ l2) = ordered p l1 && ordered (phase_after p l1) l2.
Proof.
  revert p; induction l1 as [|c l1 IH]; intros p; simpl; [reflexivity|].
  now rewrite IH, andb_assoc.
Qed.

Lemma phase_after_app (p : phase) (l1 l2 : list call) :
  phase_after p (l1 ++ l2) = phase_after (phase_after p l1) l2.
Proof. apply fold_left_app. Qed.

Lemma ordered_loop (m : nat) (p : phase) :
  is_initialized p = true ->
  ordered p (concat (repeat body_calls m)) = true.
Proof.
  revert p; induction m as [|m IH]; intros p Hp; [reflexivity|].
  change (concat (repeat body_calls (S m)))
    with (body_calls ++ concat (repeat body_calls m)).
  rewrite ordered_app.
  rewrite IH by reflexivity.
  destruct p; try discriminate; reflexivity.
Qed.

(** A checked list never makes a call in a phase that does not allow it. *)
Lemma ordered_sound (l pre post : list call) (c : call) (p : phase) :
  ordered p l = true ->
  l = pre ++ c :: post ->
  allowed (phase_after p pre) c = true.
Proof.
  intros Ho ->. rewrite ordered_app in Ho.
  apply andb_prop in Ho as [_ Ho]. simpl in Ho.
  now apply andb_prop in Ho as [Ho _].
Qed.

Lemma ku_notebook_ordered :
  ordered NoModel (log (fst (ku_notebook fresh_kernel))) = true.
Proof.
  destruct ku_notebook_log as [m ->].
  rewrite app_assoc, ordered_app.
  apply andb_true_intro; split; [reflexivity|].
  apply ordered_loop. reflexivity.
Qed.

Lemma ku_notebook_calls :
  Forall (fun c => ku_call c = true) (log (fst (ku_notebook fresh_kernel))).
Proof.
  destruct ku_notebook_log as [m ->].
  rewrite app_assoc. apply Forall_app; split.
  - repeat constructor.
  - induction m as [|m IH]; simpl; [constructor|].
    repeat (constructor; [reflexivity|]). exact IH.
Qed.

(** C4: in the Ku notebook no call is made in a phase of the model that does
    not allow it: initialize only right after setup, update, set_value and
    property reads only on an initialized model, get_value only after an
    update that followed the last initialize.  This holds for whatever
    part of the notebook runs before a cell raises. *)
Theorem ku_calls_in_order (pre post : list call) (c : call) :
  log (fst (ku_notebook fresh_kernel)) = pre ++ c :: post ->
  allowed (phase_after NoModel pre) c = true.
Proof.
  intros H. exact (ordered_sound _ pre post c NoModel ku_notebook_ordered H).
Qed.

(** ** Further facts about the driver cell *)

Lemma firstn_app_length {A : Type} (l x : list A) :
  firstn (List.length l) (l ++ x) = l.
Proof.
  induction l as [|a l IH]; simpl; [reflexivity | now rewrite IH].
Qed.

(** When n_steps exceeds the number of rows the cell stops with IndexError
    at the first missing row: it has made one update per row, the model is
    the one forced by the whole table, the first slots of thickness hold the
    values read so far, and the remaining slots keep what np.empty left. *)
Theorem driver_stops_at_table_end (k : Kernel) (n : Z) :
  n_steps_of (ku k) = Ok n ->
  (Z.of_nat (List.length data) < n)%Z ->
  snd (part4_driver k) = Raise IndexError /\
  List.length (filter is_update (calls_since k (fst (part4_driver k)))) =
    List.length data /\
  ku (fst (part4_driver k)) = ku_after (ku k) data /\
  List.length (thickness (fst (part4_driver k))) = Z.to_nat n /\
  firstn (List.length data) (thickness (fst (part4_driver k))) =
    thickness_of (ku k) data /\
  skipn (List.length data) (thickness (fst (part4_driver k))) =
    skipn (List.length data) (map junk (seq 0 (Z.to_nat n))).
Proof.
  intros Hn Hr. rewrite (part4_driver_short k n Hn Hr).
  cbn [fst snd ku thickness log]. unfold calls_since. cbn [log].
  rewrite skipn_app_length.
  assert (Hl : List.length (thickness_of (ku k) data) = List.length data)
    by apply thickness_of_length.
  repeat split.
  - simpl. apply updates_in_loop.
  - rewrite length_app, Hl, length_skipn, length_map, length_seq. lia.
  - rewrite <- Hl at 1. apply firstn_app_length.
  - rewrite <- Hl at 1. apply skipn_app_length.
Qed.

(** When the time step is zero, or n_steps comes out negative, the cell
    raises (ZeroDivisionError, ValueError) before it touches the model: the
    three property reads are its only calls, and the model and thickness
    are as before. *)
Theorem driver_refuses_without_steps (k : Kernel) :
  (ku_time_step (ku k) == 0 ->
   part4_driver k =
     (mkKernel (ku k) (thickness k) (log k ++ n_steps_calls),
      Raise ZeroDivisionError)) /\
  (forall n, n_steps_of (ku k) = Ok n -> (n < 0)%Z ->
   part4_driver k =
     (mkKernel (ku k) (thickness k) (log k ++ n_steps_calls),
      Raise ValueError)).
Proof.
  split.
  - intros Hz. apply part4_driver_no_steps.
    unfold n_steps_of, py_div. apply Qeq_bool_iff in Hz. now rewrite Hz.
  - intros n Hn Hneg. exact (part4_driver_negative k n Hn Hneg).
Qed.

End KuNotebook.

(** ** Facts about the steady-state writer *)

Module SteadyFacts.
Import Steady.

Lemma Qgtb_true (a b : Q) : Qgtb a b = true <-> b < a.
Proof.
  unfold Qgtb. rewrite negb_true_iff. split.
  - intros H. apply Qnot_le_lt. intros Hle.
    apply Qle_bool_iff in Hle. congruence.
  - intros H. destruct (Qle_bool a b) eqn:E; [|reflexivity].
    apply Qle_bool_iff in E. exfalso. exact (Qlt_not_le _ _ H E).
Qed.

Lemma Qleb_true (a b : Q) : Qleb a b = true <-> a <= b.
Proof. apply Qle_bool_iff. Qed.

(** The builtin max is below a bound exactly when every item is. *)
Lemma fold_max_le (t : Q) (rest : list Q) :
  forall x,
    fold_left (fun m y => if Qgtb y m then y else m) rest x <= t <->
    x <= t /\ Forall (fun y => y <= t) rest.
Proof.
  induction rest as [|y rest IH]; intros x; simpl.
  - split; [intros H; split; [exact H | constructor] | intros [H _]; exact H].
  - rewrite IH. destruct (Qgtb y x) eqn:E.
    + apply Qgtb_true in E. split.
      * intros [Hy Hr]. split; [|constructor; assumption].
        apply Qle_trans with y; [apply Qlt_le_weak|]; assumption.
      * intros [_ Hr]. inversion Hr; subst. split; assumption.
    + assert (Hyx : y <= x).
      { apply Qnot_lt_le. intros Hlt. apply Qgtb_true in Hlt. congruence. }
      split.
      * intros [Hx Hr]. split; [assumption|].
        constructor; [apply Qle_trans with x|]; assumption.
      * intros [Hx Hr]. inversion Hr; subst. split; assumption.
Qed.

Lemma py_max_le (l : list Q) (m t : Q) :
  py_max l = Ok m ->
  (m <= t <-> Forall (fun y => y <= t) l).
Proof.
  destruct l as [|x rest]; simpl; [discriminate|].
  intros [= <-]. rewrite fold_max_le. split.
  - intros [Hx Hr]. constructor; assumption.
  - intros H. inversion H; subst. split; assumption.
Qed.

Lemma py_max_nonempty (l : list Q) :
  l <> [] -> exists m, py_max l = Ok m.
Proof.
  destruct l as [|x rest]; [congruence|]. intros _. simpl. eauto.
Qed.

(** Indexing by nodes that are in range gives one element per node. *)
Lemma take_in_range (a : list Q) (idx : list nat) :
  (forall i, In i idx -> (i < List.length a)%nat) ->
  exists l, take a idx = Ok l /\ List.length l = List.length idx.
Proof.
  induction idx as [|i idx IH]; intros H; simpl.
  - exists []. auto.
  - destruct (nth_error a i) as [x|] eqn:E.
    + destruct IH as (l & -> & Hl); [intros j Hj; apply H; now right|].
      exists (x :: l). simpl. auto.
    + apply nth_error_None in E. specialize (H i (or_introl eq_refl)). lia.
Qed.

(** Indexing sees only the indexed nodes. *)
Lemma take_ext (a b : list Q) (idx : list nat) :
  (forall i, In i idx -> nth_error a i = nth_error b i) ->
  take a idx = take b idx.
Proof.
  induction idx as [|i idx IH]; intros H; simpl; [reflexivity|].
  rewrite <- (H i (or_introl eq_refl)).
  rewrite IH; [reflexivity|]. intros j Hj. apply H. now right.
Qed.

(** The differences the check looks at are those at the core nodes. *)
Lemma core_diff_within (a b : list Q) (t : Q) (idx : list nat) :
  forall za lb,
    take a idx = Ok za ->
    take b idx = Ok lb ->
    (Forall (fun d => d <= t) (arr_abs (arr_sub za lb)) <->
     forall i x y, In i idx -> nth_error a i = Some x ->
                   nth_error b i = Some y -> Qabs (x - y) <= t).
Proof.
  induction idx as [|i idx IH]; intros za lb Ha Hb; simpl in Ha, Hb.
  - injection Ha as <-. injection Hb as <-. simpl.
    split; [intros _ i x y [] | constructor].
  - destruct (nth_error a i) as [x|] eqn:Ex; [|discriminate].
    destruct (nth_error b i) as [y|] eqn:Ey; [|discriminate].
    destruct (take a idx) as [za'|] eqn:Ea; [|discriminate].
    destruct (take b idx) as [lb'|] eqn:Eb; [|discriminate].
    simpl in Ha, Hb. injection Ha as <-. injection Hb as <-.
    specialize (IH za' lb' eq_refl eq_refl).
    unfold arr_abs, arr_sub in *. simpl. split.
    + intros H j u v [<-|Hj] Hu Hv.
      * rewrite Ex in Hu. rewrite Ey in Hv.
        injection Hu as <-. injection Hv as <-. now inversion H.
      * inversion H; subst. apply (proj1 IH) with j; assumption.
    + intros H. constructor.
      * apply (H i); auto.
      * apply IH. intros j u v Hj. apply (H j). now right.
Qed.

(** What a call at a positive model time does, given the largest absolute
    difference at the core nodes. *)
Lemma run_one_step_checked (w : World) (zc lc : list Q) (mx : Q) :
  0 < model_time (model w) ->
  take (z (model w)) (core_nodes (model w)) = Ok zc ->
  take (last_z (writer w)) (core_nodes (model w)) = Ok lc ->
  py_max (arr_abs (arr_sub zc lc)) = Ok mx ->
  run_one_step w =
    if Qleb mx (self_tolerance (writer w)) then
      Ok (mkWorld (set_stop (model w) (model_time (model w))) (writer w),
          [ReachedSteady (model_time (model w))])
    else if Qleb (model_time (model w))
                 (clock_stop (model w) - output_interval (model w)) then
      Ok (mkWorld (set_stop (model w)
                            (clock_stop (model w) + output_interval (model w)))
                  (set_last_z (writer w) (z (model w))), [])
    else
      Ok (mkWorld (model w) (set_last_z (writer w) (z (model w))), []).
Proof.
  intros Ht Hz Hl Hm. unfold run_one_step.
  apply Qgtb_true in Ht. rewrite Ht, Hz, Hl. simpl. rewrite Hm. simpl.
  reflexivity.
Qed.

(** A call at model time zero (or before) does nothing. *)
Lemma run_one_step_at_start (w : World) :
  model_time (model w) <= 0 -> run_one_step w = Ok (w, []).
Proof.
  intros Ht. unfold run_one_step.
  destruct (Qgtb (model_time (model w)) 0) eqn:E; [|reflexivity].
  apply Qgtb_true in E. exfalso. exact (Qlt_not_le _ _ E Ht).
Qed.

(** The check evaluates when the core nodes are in range and not empty, and
    its outcome is the comparison of the core differences with the
    tolerance. *)
Lemma core_check (w : World) :
  core_in_range w ->
  exists zc lc mx,
    take (z (model w)) (core_nodes (model w)) = Ok zc /\
    take (last_z (writer w)) (core_nodes (model w)) = Ok lc /\
    py_max (arr_abs (arr_sub zc lc)) = Ok mx /\
    (Qleb mx (self_tolerance (writer w)) = true <-> core_within_tolerance w).
Proof.
  intros [Hne Hr].
  destruct (take_in_range (z (model w)) (core_nodes (model w)))
    as (zc & Hz & Lz); [intros i Hi; now apply Hr|].
  destruct (take_in_range (last_z (writer w)) (core_nodes (model w)))
    as (lc & Hl & Ll); [intros i Hi; now apply Hr|].
  destruct (py_max_nonempty (arr_abs (arr_sub zc lc))) as [mx Hm].
  { intros E. apply (f_equal (@List.length Q)) in E.
    unfold arr_abs, arr_sub in E.
    rewrite !length_map, length_combine, Lz, Ll, Nat.min_id in E.
    destruct (core_nodes (model w)); [congruence | discriminate]. }
  exists zc, lc, mx. repeat split; trivial.
  - intros H. apply Qleb_true in H.
    apply (py_max_le _ _ _ Hm) in H.
    unfold core_within_tolerance.
    apply (core_diff_within _ _ _ _ zc lc Hz Hl). exact H.
  - intros H. apply Qleb_true. apply (py_max_le _ _ _ Hm).
    apply (core_diff_within _ _ _ _ zc lc Hz Hl). exact H.
Qed.

(** C1 (amended): at a positive model time, with core nodes that index both
    arrays, the call declares steady state (prints the message and fixes
    clock.stop to the model time) exactly when every core node differs by at
    most the tolerance between the current and the saved array; it then
    leaves the saved array alone, and otherwise replaces it by a copy of the
    current array and declares nothing. *)
Theorem steady_iff_core (w : World) :
  0 < model_time (model w) ->
  core_in_range w ->
  exists r,
    run_one_step w = Ok r /\
    (declared_steady w r <-> core_within_tolerance w) /\
    (core_within_tolerance w -> writer (fst r) = writer w) /\
    (~ core_within_tolerance w ->
       last_z (writer (fst r)) = z (model w) /\ snd r = []).
Proof.
  intros Ht Hc.
  destruct (core_check w Hc) as (zc & lc & mx & Hz & Hl & Hm & Hiff).
  rewrite (run_one_step_checked w zc lc mx Ht Hz Hl Hm).
  destruct (Qleb mx (self_tolerance (writer w))) eqn:E.
  - eexists; split; [reflexivity|]. simpl.
    assert (Hin : core_within_tolerance w) by now apply Hiff.
    repeat split; auto; contradiction.
  - assert (Hout : ~ core_within_tolerance w).
    { intros H. apply Hiff in H. discriminate. }
    destruct (Qleb (model_time (model w)) _);
      (eexists; split; [reflexivity|]); simpl;
      (split; [split; [intros [H _]; discriminate | contradiction]|]);
      (split; [contradiction | auto]).
Qed.

(** The tolerance a writer is made with is the notebook's 20.0, and its
    first saved array is the model's array at that moment. *)
Lemma init_writer (m : Model) :
  self_tolerance (writer (init m)) = 20 /\ last_z (writer (init m)) = z m.
Proof. split; reflexivity. Qed.

(** A call that does not find steady state and is at most clock.stop minus
    output_interval in model time moves clock.stop on by output_interval;
    later than that it leaves clock.stop alone. *)
Lemma stop_extended (w : World) (r : World * list message) :
  0 < model_time (model w) ->
  core_in_range w ->
  ~ core_within_tolerance w ->
  run_one_step w = Ok r ->
  clock_stop (model (fst r)) =
    if Qleb (model_time (model w))
            (clock_stop (model w) - output_interval (model w))
    then clock_stop (model w) + output_interval (model w)
    else clock_stop (model w).
Proof.
  intros Ht Hc Hout Hrun.
  destruct (core_check w Hc) as (zc & lc & mx & Hz & Hl & Hm & Hiff).
  rewrite (run_one_step_checked w zc lc mx Ht Hz Hl Hm) in Hrun.
  destruct (Qleb mx (self_tolerance (writer w))) eqn:E.
  - exfalso. apply Hout. now apply Hiff.
  - destruct (Qleb (model_time (model w)) _);
      injection Hrun as <-; reflexivity.
Qed.

(** C7: two worlds with the same model time, clock stop, output interval,
    tolerance and core nodes, whose current and saved arrays agree at every
    core node, get the same outcome from the call: the same exception, or
    the same declaration and the same clock.stop.  Elevations at the other
    nodes do not matter. *)
Theorem decision_reads_core_only (w1 w2 : World) :
  model_time (model w1) = model_time (model w2) ->
  clock_stop (model w1) = clock_stop (model w2) ->
  output_interval (model w1) = output_interval (model w2) ->
  self_tolerance (writer w1) = self_tolerance (writer w2) ->
  core_nodes (model w1) = core_nodes (model w2) ->
  (forall i, In i (core_nodes (model w1)) ->
     nth_error (z (model w1)) i = nth_error (z (model w2)) i) ->
  (forall i, In i (core_nodes (model w1)) ->
     nth_error (last_z (writer w1)) i = nth_error (last_z (writer w2)) i) ->
  observe (run_one_step w1) = observe (run_one_step w2).
Proof.
  intros Ht Hs Ho Htol Hc Hz Hl.
  unfold run_one_step.
  rewrite (take_ext _ _ _ Hz), (take_ext _ _ _ Hl).
  rewrite <- Hc, <- Ht, <- Hs, <- Ho, <- Htol.
  destruct (Qgtb (model_time (model w1)) 0);
    [|unfold observe, rmap; simpl; congruence].
  destruct (take (z (model w2)) _) as [zc|e]; [|reflexivity].
  destruct (take (last_z (writer w2)) _) as [lc|e]; [|reflexivity].
  simpl. destruct (py_max _) as [mx|e]; [|reflexivity].
  simpl. destruct (Qleb mx _); [reflexivity|].
  destruct (Qleb (model_time (model w1)) _);
    unfold observe, rmap; simpl; congruence.
Qed.

(** A core node that rose by 30: nothing is declared, the current array is
    saved and clock.stop moves from 1e7 to 1e7 + 1e4. *)
Example run_one_step_core_moved :
  run_one_step core_moved =
    Ok (mkWorld (mkModel [0; 35] [1%nat] 10000 10010000 10000)
                (mkWriter [0; 35] 20),
        []).
Proof. reflexivity. Qed.

(** The same world at model time zero: the call does nothing. *)
Example run_one_step_time_zero :
  let w := mkWorld (mkModel [0; 35] [1%nat] 0 10000000 10000)
                   (mkWriter [0; 5] 20) in
  run_one_step w = Ok (w, []).
Proof. reflexivity. Qed.

(** No core node at all: the builtin max refuses the empty array. *)
Example run_one_step_no_core :
  run_one_step (mkWorld (mkModel [0; 35] [] 10000 10000000 10000)
                        (mkWriter [0; 5] 20)) = Raise ValueError.
Proof. reflexivity. Qed.

(** One world with a boundary node that moved by 100 and a core node that
    did not move: the call declares steady state. *)
Lemma steady_iff_core_witness :
  0 < model_time (model boundary_moved) /\
  core_in_range boundary_moved /\
  exists r,
    run_one_step boundary_moved = Ok r /\
    (declared_steady boundary_moved r <->
     core_within_tolerance boundary_moved) /\
    (core_within_tolerance boundary_moved ->
       writer (fst r) = writer boundary_moved) /\
    (~ core_within_tolerance boundary_moved ->
       last_z (writer (fst r)) = z (model boundary_moved) /\ snd r = []).
Proof.
  assert (Ht : 0 < model_time (model boundary_moved)) by reflexivity.
  assert (Hc : core_in_range boundary_moved).
  { split; [discriminate|]. intros i [<-|[]]. simpl. lia. }
  split; [exact Ht|]. split; [exact Hc|].
  exact (steady_iff_core boundary_moved Ht Hc).
Defined.

(** C1 as stated fails: with a boundary node 100 below the saved array and
    an unmoved core node the call declares steady state, although the two
    arrays differ by more than the tolerance. *)
Lemma steady_iff_arrays_fails : ~ steady_iff_arrays boundary_moved.
Proof.
  intros H.
  assert (Ht : 0 < model_time (model boundary_moved)) by reflexivity.
  destruct (H Ht _ eq_refl) as [Hd _].
  assert (Ha : arrays_within_tolerance boundary_moved).
  { apply Hd. split; reflexivity. }
  specialize (Ha 0%nat 0 100 eq_refl eq_refl).
  apply Qleb_true in Ha. discriminate.
Qed.

Lemma decision_reads_core_only_witness :
  observe (run_one_step boundary_moved) = observe (run_one_step boundary_still).
Proof.
  apply decision_reads_core_only; try reflexivity;
    intros i [<-|[]]; reflexivity.
Defined.

(** *** Further facts: what a call keeps, when it raises, repeated calls *)

(** What [take] returns: one element per index when all are in range,
    IndexError as soon as one is not. *)
Lemma take_spec (a : list Q) (idx : list nat) :
  match take a idx with
  | Ok l => List.length l = List.length idx /\
            forall i, In i idx -> (i < List.length a)%nat
  | Raise e => e = IndexError /\
               exists i, In i idx /\ (List.length a <= i)%nat
  end.
Proof.
  induction idx as [|i idx IH]; simpl.
  - split; [reflexivity | intros i []].
  - destruct (nth_error a i) as [x|] eqn:E.
    + destruct (take a idx) as [l|e]; simpl.
      * destruct IH as [Hl Hr]. split; [now rewrite Hl|].
        intros j [<-|Hj]; [|now apply Hr].
        apply nth_error_Some. congruence.
      * destruct IH as [He (j & Hj & Hlen)]. split; [exact He|].
        exists j. auto.
    + split; [reflexivity|]. exists i. split; [now left|].
      now apply nth_error_None.
Qed.

(** A call changes nothing of the model but clock.stop, and nothing of the
    writer but the saved array. *)
Theorem run_one_step_frame (w : World) (r : World * list message) :
  run_one_step w = Ok r ->
  z (model (fst r)) = z (model w) /\
  core_nodes (model (fst r)) = core_nodes (model w) /\
  model_time (model (fst r)) = model_time (model w) /\
  output_interval (model (fst r)) = output_interval (model w) /\
  self_tolerance (writer (fst r)) = self_tolerance (writer w).
Proof.
  unfold run_one_step.
  destruct (Qgtb (model_time (model w)) 0).
  2:{ intros [= <-]. repeat split. }
  destruct (take (z (model w)) _) as [zc|e]; [|discriminate].
  destruct (take (last_z (writer w)) _) as [lc|e]; [|discriminate].
  simpl. destruct (py_max _) as [mx|e]; [|discriminate].
  simpl. destruct (Qleb mx _).
  - intros [= <-]. repeat split.
  - destruct (Qleb (model_time (model w)) _); intros [= <-]; repeat split.
Qed.

(** When a call raises: never at model time zero or before; at a positive
    model time ValueError exactly when there is no core node, IndexError
    exactly when a core node is past the end of the current or of the saved
    array, and nothing else. *)
Theorem run_one_step_raises (w : World) :
  (run_one_step w = Raise ValueError <->
   0 < model_time (model w) /\ core_nodes (model w) = []) /\
  (run_one_step w = Raise IndexError <->
   0 < model_time (model w) /\
   exists i, In i (core_nodes (model w)) /\
             ((List.length (z (model w)) <= i)%nat \/
              (List.length (last_z (writer w)) <= i)%nat)) /\
  run_one_step w <> Raise ZeroDivisionError.
Proof.
  unfold run_one_step.
  destruct (Qgtb (model_time (model w)) 0) eqn:Et.
  2:{ assert (Hn : ~ 0 < model_time (model w)).
      { intros H. apply Qgtb_true in H. congruence. }
      repeat split; try discriminate; intros [H _]; contradiction. }
  apply Qgtb_true in Et.
  pose proof (take_spec (z (model w)) (core_nodes (model w))) as Hz.
  pose proof (take_spec (last_z (writer w)) (core_nodes (model w))) as Hl.
  destruct (take (z (model w)) _) as [zc|e].
  2:{ destruct Hz as [-> (i & Hi & Hlen)]. simpl.
      repeat split; try discriminate; eauto.
      intros [_ Hc]. rewrite Hc in Hi. destruct Hi. }
  destruct (take (last_z (writer w)) _) as [lc|e].
  2:{ destruct Hl as [-> (i & Hi & Hlen)]. simpl.
      repeat split; try discriminate; eauto.
      intros [_ Hc]. rewrite Hc in Hi. destruct Hi. }
  destruct Hz as [Lz Rz]. destruct Hl as [Ll Rl]. simpl.
  assert (Hin : ~ exists i, In i (core_nodes (model w)) /\
                  ((List.length (z (model w)) <= i)%nat \/
                   (List.length (last_z (writer w)) <= i)%nat)).
  { intros (i & Hi & [H|H]); [specialize (Rz i Hi) | specialize (Rl i Hi)];
      lia. }
  destruct (core_nodes (model w)) as [|c cs] eqn:Ec.
  - destruct zc; [|discriminate]. destruct lc; [|discriminate]. simpl.
    repeat split; try discriminate; auto.
    intros [_ H]. contradiction.
  - destruct zc as [|a zc]; [discriminate|].
    destruct lc as [|b lc]; [discriminate|]. simpl.
    destruct (Qleb _ (self_tolerance (writer w)));
      [|destruct (Qleb (model_time (model w)) _)];
      (repeat split; try discriminate;
       [intros [_ H]; discriminate | intros [_ H]; contradiction]).
Qed.


Lemma Qabs_diff_self (a t : Q) : 0 <= t -> Qabs (a - a) <= t.
Proof.
  intros Ht. assert (E : a - a == 0) by ring.
  rewrite E. exact Ht.
Qed.

(** A saved array that agrees with the current one at the core nodes is
    within any tolerance that is not negative. *)
Lemma agreeing_within (w : World) :
  0 <= self_tolerance (writer w) ->
  (forall i, In i (core_nodes (model w)) ->
     nth_error (z (model w)) i = nth_error (last_z (writer w)) i) ->
  core_within_tolerance w.
Proof.
  intros Ht Hag i a b Hi Ha Hb.
  rewrite (Hag i Hi), Hb in Ha. injection Ha as <-.
  now apply Qabs_diff_self.
Qed.

(** A call on a world that is within tolerance at its core nodes
    declares steady state. *)
Lemma within_declares (w : World) :
  0 < model_time (model w) ->
  core_in_range w ->
  core_within_tolerance w ->
  run_one_step w =
    Ok (mkWorld (set_stop (model w) (model_time (model w))) (writer w),
        [ReachedSteady (model_time (model w))]).
Proof.
  intros Ht Hc Hin.
  destruct (core_check w Hc) as (zc & lc & mx & Hz & Hl & Hm & Hiff).
  rewrite (run_one_step_checked w zc lc mx Ht Hz Hl Hm).
  apply Hiff in Hin. now rewrite Hin.
Qed.

(** A writer called on the model it was just made from, at a positive
    model time, declares steady state at once and stops the clock there:
    nothing has moved since its copy was taken. *)
Theorem fresh_writer_declares (m : Model) :
  0 < model_time m ->
  core_nodes m <> [] ->
  (forall i, In i (core_nodes m) -> (i < List.length (z m))%nat) ->
  run_one_step (init m) =
    Ok (mkWorld (set_stop m (model_time m)) (mkWriter (z m) 20),
        [ReachedSteady (model_time m)]).
Proof.
  intros Ht Hne Hr.
  assert (H := within_declares (init m)). apply H; [exact Ht | |].
  - split; simpl; auto.
  - apply agreeing_within; simpl; [discriminate | reflexivity].
Qed.

(** Calling again with the model unchanged: whatever the first call
    did, the second declares steady state and sets clock.stop to the model
    time (for a tolerance that is not negative). *)
Theorem second_call_declares (w : World) (r : World * list message) :
  0 < model_time (model w) ->
  core_in_range w ->
  0 <= self_tolerance (writer w) ->
  run_one_step w = Ok r ->
  exists r',
    run_one_step (fst r) = Ok r' /\
    snd r' = [ReachedSteady (model_time (model w))] /\
    clock_stop (model (fst r')) = model_time (model w).
Proof.
  intros Ht Hc Htol Hrun.
  destruct (core_check w Hc) as (zc & lc & mx & Hz & Hl & Hm & Hiff).
  rewrite (run_one_step_checked w zc lc mx Ht Hz Hl Hm) in Hrun.
  destruct Hc as [Hne Hr].
  destruct (Qleb mx (self_tolerance (writer w))) eqn:E.
  - injection Hrun as <-. eexists. split.
    + set (w' := mkWorld (set_stop (model w) (model_time (model w)))
                         (writer w)).
      assert (H := within_declares w').
      apply H; [exact Ht | split; simpl; auto |].
      exact (proj1 Hiff eq_refl).
    + split; reflexivity.
  - assert (Hw : forall s,
      run_one_step (mkWorld (set_stop (model w) s)
                            (set_last_z (writer w) (z (model w)))) =
      Ok (mkWorld (set_stop (set_stop (model w) s) (model_time (model w)))
                  (set_last_z (writer w) (z (model w))),
          [ReachedSteady (model_time (model w))])).
    { intros s.
      set (w' := mkWorld (set_stop (model w) s)
                         (set_last_z (writer w) (z (model w)))).
      assert (H := within_declares w').
      rewrite H; [reflexivity | exact Ht | |].
      - split; simpl; auto. intros i Hi. split; now apply Hr.
      - apply agreeing_within; simpl; auto. }
    destruct (Qleb (model_time (model w)) _); injection Hrun as <-.
    + eexists. split; [apply Hw|]. split; reflexivity.
    + replace (fst (mkWorld (model w) (set_last_z (writer w) (z (model w))),
                    @nil message))
        with (mkWorld (set_stop (model w) (clock_stop (model w)))
                      (set_last_z (writer w) (z (model w)))).
      * eexists. split; [apply Hw|]. split; reflexivity.
      * simpl. destruct (model w). reflexivity.
Qed.

(** The frame, the stop rule and the second call at the sample worlds. *)
Lemma run_one_step_frame_witness :
  z (model (fst (mkWorld (mkModel [0; 35] [1%nat] 10000 10010000 10000)
                         (mkWriter [0; 35] 20), @nil message))) =
  z (model core_moved).
Proof.
  exact (proj1 (run_one_step_frame core_moved _ run_one_step_core_moved)).
Defined.


Lemma fresh_writer_declares_witness :
  run_one_step (init (example_model 0 5)) =
    Ok (mkWorld (set_stop (example_model 0 5) 10000) (mkWriter [0; 5] 20),
        [ReachedSteady 10000]).
Proof.
  apply (fresh_writer_declares (example_model 0 5)).
  - reflexivity.
  - discriminate.
  - intros i [<-|[]]. simpl. lia.
Defined.

Lemma second_call_declares_witness :
  exists r',
    run_one_step (mkWorld (mkModel [0; 35] [1%nat] 10000 10010000 10000)
                          (mkWriter [0; 35] 20)) = Ok r' /\
    snd r' = [ReachedSteady 10000] /\
    clock_stop (model (fst r')) = 10000.
Proof.
  assert (Ht : 0 < model_time (model core_moved)) by reflexivity.
  assert (Hc : core_in_range core_moved).
  { split; [discriminate|]. intros i [<-|[]]. simpl. lia. }
  assert (Htol : 0 <= self_tolerance (writer core_moved)) by discriminate.
  exact (second_call_declares core_moved _ Ht Hc Htol run_one_step_core_moved).
Defined.

End SteadyFacts.

(** ** Facts about the BasicVs notebook *)

Section BasicVsFacts.

Variable RNG : Type.
Variable np_random_seed : Z -> RNG.
Variable from_dict : pyval -> RNG -> Steady.Model * RNG.
Variable lib_run :
  (Steady.World -> result (Steady.World * list Steady.message)) ->
  Steady.World * RNG ->
  (Steady.World * RNG * list Steady.message) * result unit.

Local Abbreviation notebook_with :=
  (basicvs_notebook_with RNG np_random_seed from_dict lib_run).

(** The calls of the notebook: from_dict and run, and, exactly when run
    returns and the later cells are reached, five reads of model.grid for
    the plot, remove_output_netcdfs and one more read. *)
Lemma basicvs_log (p : pyval) (g : RNG) :
  blog RNG (fst (notebook_with p (fresh RNG g))) =
    match snd (notebook_with p (fresh RNG g)) with
    | Ok _ => basicvs_run_calls ++ basicvs_later_calls
    | Raise _ => basicvs_run_calls
    end.
Proof.
  unfold basicvs_notebook_with, bindM, cell_seed, cell_run; simpl.
  destruct (snd (lib_run _ _)); reflexivity.
Qed.

End BasicVsFacts.

(** ** Which calls the notebooks make *)



(** ** The theorems at the sample instance *)

Local Abbreviation ex_driver :=
  (part4_driver Q Sample.ku_update Sample.ku_get_value Sample.ku_set_value
     Sample.ku_end_time Sample.ku_time Sample.ku_time_step
     Sample.data Sample.junk).
Local Abbreviation ex_notebook :=
  (ku_notebook Q unit Sample.ku_new Sample.ku_setup Sample.ku_initialize
     Sample.ku_update Sample.ku_get_value Sample.ku_set_value
     Sample.ku_end_time Sample.ku_time Sample.ku_time_step
     Sample.data Sample.junk).
Local Abbreviation ex_kernel := (mkKernel Q 0 [] []).

(** Two steps over a two-row table: the reads are in bounds and the cell
    does not raise IndexError. *)
Lemma driver_reads_in_bounds_witness :
  ((forall i, (i < Z.to_nat 2)%nat -> in_bounds Sample.data i) <->
   (2 <= Z.of_nat (List.length Sample.data))%Z) /\
  (snd (ex_driver ex_kernel) = Raise IndexError <->
   (Z.of_nat (List.length Sample.data) < 2)%Z).
Proof.
  apply (driver_reads_in_bounds Q Sample.ku_update Sample.ku_get_value
           Sample.ku_set_value Sample.ku_end_time Sample.ku_time
           Sample.ku_time_step Sample.data Sample.junk ex_kernel 2).
  reflexivity.
Defined.

(** Two steps over a two-row table: the cell completes with two updates and
    the thicknesses read after the first and the second. *)
Lemma driver_loop_counts_witness :
  snd (ex_driver ex_kernel) = Ok tt /\
  List.length (filter is_update
                 (calls_since Q ex_kernel (fst (ex_driver ex_kernel)))) = 2%nat /\
  thickness Q (fst (ex_driver ex_kernel)) =
    thickness_of Q Sample.ku_update Sample.ku_get_value Sample.ku_set_value
      0 Sample.data.
Proof.
  destruct (driver_loop_counts Q Sample.ku_update Sample.ku_get_value
              Sample.ku_set_value Sample.ku_end_time Sample.ku_time
              Sample.ku_time_step Sample.data Sample.junk ex_kernel)
    as [Hdone Hcounts].
  split.
  - apply (Hdone 2%Z); [reflexivity | simpl; lia].
  - destruct (Hcounts (fst (ex_driver ex_kernel)))
      as (n & Hn & _ & _ & Hu & _ & Hth & _).
    + vm_compute. reflexivity.
    + assert (n = 2%Z) by (vm_compute in Hn; congruence). subst n.
      split; [exact Hu | exact Hth].
Defined.

(** The last call of the example run is a get_value, made on a model that
    has been updated. *)
Lemma ku_calls_in_order_witness :
  allowed
    (phase_after NoModel (removelast (log Q (fst (ex_notebook (fresh_kernel Q Sample.ku_new))))))
    (GetValue ALT) = true.
Proof.
  apply (ku_calls_in_order Q unit Sample.ku_new Sample.ku_setup
           Sample.ku_initialize Sample.ku_update Sample.ku_get_value
           Sample.ku_set_value Sample.ku_end_time Sample.ku_time
           Sample.ku_time_step Sample.data Sample.junk _ []).
  vm_compute. reflexivity.
Defined.

(** Two steps asked of a one-row table: the cell stops with IndexError
    after a single update, and the second slot of thickness keeps what
    np.empty left there. *)
Example driver_short_table :
  let r := part4_driver Q Sample.ku_update Sample.ku_get_value
             Sample.ku_set_value Sample.ku_end_time Sample.ku_time
             Sample.ku_time_step [mkRow (- (12)) 18 (2 # 10)] Sample.junk
             ex_kernel in
  snd r = Raise IndexError /\
  List.length (filter is_update (log Q (fst r))) = 1%nat /\
  List.length (thickness Q (fst r)) = 2%nat.
Proof. vm_compute. repeat split. Qed.

(** ** Further facts *)

(** Elements picked by indices are those of the array at these indices. *)
Lemma take_nth (a : list Q) (idx : list nat) (l : list Q) :
  take a idx = Ok l ->
  List.length l = List.length idx /\
  forall j i, nth_error idx j = Some i -> nth_error l j = nth_error a i.
Proof.
  revert l; induction idx as [|i idx IH]; intros l; simpl.
  - intros [= <-]. split; [reflexivity|]. intros [|j] i H; discriminate.
  - destruct (nth_error a i) as [x|] eqn:E; [|discriminate].
    destruct (take a idx) as [l'|] eqn:Et; [|discriminate]. simpl.
    intros [= <-]. destruct (IH l' eq_refl) as [Hl Hn].
    split; [simpl; now rewrite Hl|].
    intros [|j] i' H; simpl in *.
    + injection H as <-. now rewrite E.
    + now apply Hn.
Qed.

(** A mask keeps elements of the array where it is True. *)
Lemma masked_in (a : list nat) (mask : list bool) (i : nat) :
  In i (map fst (filter snd (combine a mask))) ->
  exists j, nth_error a j = Some i /\ nth_error mask j = Some true.
Proof.
  revert mask; induction a as [|x a IH]; intros [|b mask]; simpl;
    try (intros []).
  destruct b; simpl.
  - intros [<-|H].
    + exists 0%nat. auto.
    + destruct (IH mask H) as (j & Hj). exists (S j). exact Hj.
  - intros H. destruct (IH mask H) as (j & Hj). exists (S j). exact Hj.
Qed.

Lemma masked_length (a : list nat) (mask : list bool) :
  (List.length (map fst (filter snd (combine a mask))) <= List.length a)%nat.
Proof.
  revert mask; induction a as [|x a IH]; intros [|b mask]; simpl; try lia.
  specialize (IH mask). destruct b; simpl; lia.
Qed.

(** The slope-area plot gets as many areas as slopes, the j-th area and the
    j-th slope are those of the same node, and that node is a core node
    which landlab did not flag as having a boundary neighbour. *)
Theorem slope_area_points
    (has_boundary_neighbor : list nat -> list bool)
    (core : list nat) (area slope : list Q)
    (nodes : list nat) (xs ys : list Q) :
  slope_area_arrays has_boundary_neighbor core area slope
    = Ok (nodes, xs, ys) ->
  List.length xs = List.length nodes /\
  List.length ys = List.length nodes /\
  (List.length nodes <= List.length core)%nat /\
  forall j i, nth_error nodes j = Some i ->
    nth_error xs j = nth_error area i /\
    nth_error ys j = nth_error slope i /\
    exists c, nth_error core c = Some i /\
              nth_error (has_boundary_neighbor core) c = Some false.
Proof.
  unfold slope_area_arrays, mask_select, is_false.
  destruct (_ =? _)%nat; [|discriminate]. simpl.
  set (pn := map fst _).
  destruct (take area pn) as [aa|] eqn:Ea; [|discriminate].
  destruct (take slope pn) as [sa|] eqn:Es; [|discriminate]. simpl.
  intros [= <- <- <-].
  destruct (take_nth _ _ _ Ea) as [La Na].
  destruct (take_nth _ _ _ Es) as [Ls Ns].
  repeat split; trivial.
  - apply masked_length.
  - now apply Na.
  - now apply Ns.
  - apply nth_error_In in H. apply masked_in in H.
    destruct H as (c & Hc & Hm). exists c. split; [exact Hc|].
    rewrite nth_error_map in Hm.
    destruct (nth_error (has_boundary_neighbor core) c) as [[]|];
      simpl in Hm; congruence.
Qed.

(** The plot cell raises IndexError exactly when landlab's flags have
    another length than the core nodes, or a plotted node is past the end
    of one of the two fields; it raises no other exception. *)
Theorem slope_area_raises
    (has_boundary_neighbor : list nat -> list bool)
    (core : list nat) (area slope : list Q) :
  (slope_area_arrays has_boundary_neighbor core area slope
     = Raise IndexError <->
   (List.length (has_boundary_neighbor core) <> List.length core \/
    exists c i, nth_error core c = Some i /\
                nth_error (has_boundary_neighbor core) c = Some false /\
                ((List.length area <= i)%nat \/
                 (List.length slope <= i)%nat))) /\
  slope_area_arrays has_boundary_neighbor core area slope
    <> Raise ValueError /\
  slope_area_arrays has_boundary_neighbor core area slope
    <> Raise ZeroDivisionError.
Proof.
  unfold slope_area_arrays, mask_select, is_false.
  rewrite length_map.
  destruct (Nat.eqb_spec (List.length core)
              (List.length (has_boundary_neighbor core))) as [El|Nl].
  2:{ simpl. repeat split; try discriminate. intros _. left. congruence. }
  simpl. set (pn := map fst _).
  assert (Hpn : forall i, In i pn <->
            exists c, nth_error core c = Some i /\
                      nth_error (has_boundary_neighbor core) c = Some false).
  { intros i. split.
    - intros H. apply masked_in in H. destruct H as (c & Hc & Hm).
      exists c. split; [exact Hc|]. rewrite nth_error_map in Hm.
      destruct (nth_error (has_boundary_neighbor core) c) as [[]|];
        simpl in Hm; congruence.
    - intros (c & Hc & Hf). unfold pn.
      clear - Hc Hf. revert c Hc Hf.
      generalize (has_boundary_neighbor core) as flags.
      induction core as [|x core' IH]; intros flags [|c] Hc Hf;
        try discriminate; destruct flags as [|b flags]; try discriminate;
        simpl in *.
      + injection Hc as ->. injection Hf as ->. simpl. now left.
      + destruct b; simpl; [|right]; now apply (IH flags c). }
  pose proof (SteadyFacts.take_spec area pn) as Ha.
  pose proof (SteadyFacts.take_spec slope pn) as Hs.
  destruct (take area pn) as [aa|e].
  2:{ simpl. destruct Ha as [-> (i & Hi & Hlen)].
      repeat split; try discriminate.
      intros _. right. apply Hpn in Hi. destruct Hi as (c & Hc & Hf).
      exists c, i. auto. }
  destruct (take slope pn) as [sa|e]; simpl.
  2:{ destruct Hs as [-> (i & Hi & Hlen)].
      repeat split; try discriminate.
      intros _. right. apply Hpn in Hi. destruct Hi as (c & Hc & Hf).
      exists c, i. auto. }
  destruct Ha as [_ Ra]. destruct Hs as [_ Rs].
  repeat split; try discriminate.
  intros [H | (c & i & Hc & Hf & Hlen)]; [congruence|].
  assert (Hi : In i pn) by (apply Hpn; eauto).
  specialize (Ra i Hi). specialize (Rs i Hi). lia.
Qed.

(** A driver cell that completes has used only the first n_steps rows of
    the table, and nothing of what np.empty left in the array: another table
    with the same first n_steps rows and other leftovers give the same
    model, thickness and calls. *)
Theorem driver_reads_first_rows
    (KuState : Type) (ku_update : KuState -> KuState)
    (ku_get_value : KuState -> string -> Q)
    (ku_set_value : KuState -> string -> Q -> KuState)
    (ku_end_time ku_time ku_time_step : KuState -> Q)
    (data data' : list Row) (junk junk' : nat -> Q)
    (k : Kernel KuState) (n : Z) :
  n_steps_of KuState ku_end_time ku_time ku_time_step (ku KuState k) = Ok n ->
  (0 <= n <= Z.of_nat (List.length data))%Z ->
  (n <= Z.of_nat (List.length data'))%Z ->
  firstn (Z.to_nat n) data = firstn (Z.to_nat n) data' ->
  part4_driver KuState ku_update ku_get_value ku_set_value ku_end_time
    ku_time ku_time_step data junk k =
  part4_driver KuState ku_update ku_get_value ku_set_value ku_end_time
    ku_time ku_time_step data' junk' k.
Proof.
  intros Hn Hd Hd' Hrows.
  rewrite (part4_driver_complete KuState ku_update ku_get_value ku_set_value
             ku_end_time ku_time ku_time_step data junk k n Hn Hd).
  rewrite (part4_driver_complete KuState ku_update ku_get_value ku_set_value
             ku_end_time ku_time ku_time_step data' junk' k n Hn)
    by lia.
  now rewrite Hrows.
Qed.

(** *** The further facts at the sample instance *)

Local Abbreviation short_driver :=
  (part4_driver Q Sample.ku_update Sample.ku_get_value Sample.ku_set_value
     Sample.ku_end_time Sample.ku_time Sample.ku_time_step
     [mkRow (- (12)) 18 (2 # 10)] Sample.junk).

Lemma driver_stops_at_table_end_witness :
  snd (short_driver ex_kernel) = Raise IndexError /\
  List.length (filter is_update
                 (calls_since Q ex_kernel (fst (short_driver ex_kernel)))) =
    1%nat /\
  List.length (thickness Q (fst (short_driver ex_kernel))) = 2%nat.
Proof.
  destruct (driver_stops_at_table_end Q Sample.ku_update Sample.ku_get_value
              Sample.ku_set_value Sample.ku_end_time Sample.ku_time
              Sample.ku_time_step [mkRow (- (12)) 18 (2 # 10)] Sample.junk
              ex_kernel 2)
    as (He & Hu & _ & Hl & _); [reflexivity | simpl; lia |].
  split; [exact He|]. split; [exact Hu | exact Hl].
Defined.

Lemma driver_refuses_without_steps_witness :
  part4_driver Q Sample.ku_update Sample.ku_get_value Sample.ku_set_value
    Sample.ku_end_time Sample.ku_time (fun _ => 0) Sample.data Sample.junk
    ex_kernel =
  (mkKernel Q 0 [] ([] ++ n_steps_calls), Raise ZeroDivisionError).
Proof.
  apply (proj1 (driver_refuses_without_steps Q Sample.ku_update
                  Sample.ku_get_value Sample.ku_set_value Sample.ku_end_time
                  Sample.ku_time (fun _ => 0) Sample.data Sample.junk
                  ex_kernel)).
  reflexivity.
Defined.

Lemma driver_reads_first_rows_witness :
  ex_driver ex_kernel =
  part4_driver Q Sample.ku_update Sample.ku_get_value Sample.ku_set_value
    Sample.ku_end_time Sample.ku_time Sample.ku_time_step
    (Sample.data ++ [mkRow 0 0 0]) (fun _ => 1) ex_kernel.
Proof.
  apply (driver_reads_first_rows Q Sample.ku_update Sample.ku_get_value
           Sample.ku_set_value Sample.ku_end_time Sample.ku_time
           Sample.ku_time_step Sample.data (Sample.data ++ [mkRow 0 0 0])
           Sample.junk (fun _ => 1) ex_kernel 2).
  - reflexivity.
  - simpl. lia.
  - simpl. lia.
  - reflexivity.
Defined.

(** Core nodes 1 and 2, of which node 1 has a boundary neighbour: node 2 is
    plotted, with its own area and slope. *)
Lemma slope_area_points_witness :
  List.length [30] = List.length [2%nat] /\
  List.length [3] = List.length [2%nat] /\
  (List.length [2%nat] <= List.length [1%nat; 2%nat])%nat /\
  forall j i, nth_error [2%nat] j = Some i ->
    nth_error [30] j = nth_error [10; 20; 30] i /\
    nth_error [3] j = nth_error [1; 2; 3] i /\
    exists c, nth_error [1%nat; 2%nat] c = Some i /\
              nth_error [true; false] c = Some false.
Proof.
  exact (slope_area_points (fun _ => [true; false]) [1%nat; 2%nat]
           [10; 20; 30] [1; 2; 3] [2%nat] [30] [3] eq_refl).
Defined.
